(** * memory/iterator.hpp: closures for iterating over objects, roots and spaces

    A shallow embedding of the closure classes declared in
    [src/hotspot/share/memory/iterator.hpp] and the properties of the
    traversal protocol that rest on them. *)

From Stdlib Require Import ZArith Lia Bool String List.
From stdpp Require Import base option gmap sets list.

Local Open Scope Z_scope.

(** ** Addresses

    Every C++ pointer ([oop*], [narrowOop*], [Klass*], [ClassLoaderData*],
    [CodeBlob*], [HeapWord*], [Symbol**] ...) is an address, kept as an
    integer.  [NULL] is address zero. *)

Abbreviation address := Z (only parsing).

Definition NULL : address := 0.

(** ** SymbolClosure: the tagged-symbol accessors *)

Module SymbolClosure.
Section Accessors.

(** Width of [intptr_t] and of a pointer, in bits (64 under LP64). *)
Variable w : Z.

(** A pointer value is the unsigned integer below [2 ^ w] that its bits
    spell. *)
Definition is_pointer (v : Z) : Prop := 0 <= v < 2 ^ w.

(** [intptr_t(p)]: the same bits read as a signed integer. *)
Definition intptr_t (p : Z) : Z :=
  if p <? 2 ^ (w - 1) then p else p - 2 ^ w.

(** [(Symbol* )i]: the low [w] bits of the integer, read as a pointer. *)
Definition to_Symbol_ptr (i : Z) : Z := i mod 2 ^ w.

(** The memory holding the [Symbol*] slots maps the address of a slot to the
    pointer stored in it.  Dereferencing an address that holds no slot is
    undefined in the source; the model returns [None] there.

    [static Symbol* load_symbol(Symbol** p)
      { return (Symbol* )(intptr_t( *p) & ~1); }] *)
Definition load_symbol (mem : gmap Z Z) (p : address) : option Z :=
  match mem !! p with
  | Some v => Some (to_Symbol_ptr (Z.land (intptr_t v) (Z.lnot 1)))
  | None => None
  end.

(** [static void store_symbol(Symbol** p, Symbol* sym)
      { *p = (Symbol* )(intptr_t(sym) | (intptr_t( *p) & 1)); }] *)
Definition store_symbol (mem : gmap Z Z) (p : address) (sym : Z)
  : option (gmap Z Z) :=
  match mem !! p with
  | Some v =>
      Some (<[p := to_Symbol_ptr
                     (Z.lor (intptr_t sym) (Z.land (intptr_t v) 1))]> mem)
  | None => None
  end.

(** The side flag of a slot value: its least-significant bit. *)
Definition side_flag (v : Z) : bool := Z.testbit v 0.

End Accessors.
End SymbolClosure.

(** ** Builds, guards and the monad of closure operations *)

(** The two builds of the VM: [debug] defines [ASSERT], [product] does not. *)
Inductive build : Type := product | debug.

(** The guard macros the header uses. *)
Inductive check : Type :=
| check_assert
| check_guarantee
| check_ShouldNotReachHere.

(** An operation either completes with a result or takes the VM down.  There
    is no handler: a [Fatal] outcome is final. *)
Inductive outcome (A : Type) : Type :=
| Done (a : A)
| Fatal (c : check) (msg : string).
Arguments Done {A} a.
Arguments Fatal {A} c msg.

(** A closure operation acts on a world [W]: the heap slots it is applied to
    together with the fields of the closure objects themselves. *)
Definition M (W A : Type) : Type := W -> outcome (A * W).

#[global] Instance M_ret {W} : MRet (M W) := fun A a w => Done (a, w).

#[global] Instance M_bind {W} : MBind (M W) :=
  fun A B k m w =>
    match m w with
    | Done (a, w') => k a w'
    | Fatal c msg => Fatal c msg
    end.

(** Modelled from the spec: the macros [assert], [guarantee] and
    [ShouldNotReachHere] are defined in utilities/debug.hpp, which is not
    part of the source.  The spec (section 7) gives protocol-misuse guards
    one treatment: "checked only in debug-mode builds via assertion-style
    guards, fatal when triggered, never recoverable or retried". *)
Definition check_enabled (c : check) (b : build) : bool :=
  match b with
  | debug => true
  | product => false
  end.

Definition vm_check {W} (b : build) (c : check) (cond : bool) (msg : string)
  : M W unit :=
  fun w => if check_enabled c b && negb cond then Fatal c msg else Done (tt, w).

Definition assert {W} (b : build) (cond : bool) (msg : string) : M W unit :=
  vm_check b check_assert cond msg.

Definition guarantee {W} (b : build) (cond : bool) (msg : string) : M W unit :=
  vm_check b check_guarantee cond msg.

Definition ShouldNotReachHere {W} (b : build) : M W unit :=
  vm_check b check_ShouldNotReachHere false "ShouldNotReachHere()".

(** ** Reference slots

    [do_oop] is overloaded on [oop*] and [narrowOop*]; a slot records which
    overload a call selects. *)
Inductive slot : Type :=
| oop_slot (p : address)
| narrowOop_slot (p : address).

(** A heap of reference slots, full-width and compressed. *)
Record Heap : Type := mkHeap {
  oops : gmap Z Z;
  narrowOops : gmap Z Z
}.

Definition slot_contents (h : Heap) (s : slot) : option Z :=
  match s with
  | oop_slot p => oops h !! p
  | narrowOop_slot p => narrowOops h !! p
  end.

(** ** OopClosure: [virtual void do_oop(oop* o) = 0;
                    virtual void do_oop(narrowOop* o) = 0;] *)
Module OopClosure.
Record t (W : Type) : Type := Build {
  do_oop : slot -> M W unit
}.
Arguments Build {W} do_oop.
Arguments do_oop {W} _ _ _.
End OopClosure.

(** ** DoNothingClosure *)
Module DoNothingClosure.
(** The class declares no field. *)
Definition t : Type := unit.

Definition do_oop {W} (this : t) (p : slot) : M W unit :=
  match p with
  | oop_slot _ => mret tt
  | narrowOop_slot _ => mret tt
  end.

Definition as_OopClosure {W} (this : t) : OopClosure.t W :=
  OopClosure.Build (do_oop this).
End DoNothingClosure.

(** [extern DoNothingClosure do_nothing_cl;] *)
Definition do_nothing_cl : DoNothingClosure.t := tt.

(** ** A closure seen from a call site of [Devirtualizer]

    The template parameter [OopClosureType] of the dispatch functions: the
    [_nv] members are bound at the static type, the others go through the
    object's virtual table. *)
Module OopClosureType.
Record t (W : Type) : Type := Build {
  do_oop_nv : slot -> M W unit;
  do_klass_nv : address -> M W unit;
  do_cld_nv : address -> M W unit;
  do_metadata_nv : M W bool;
  do_oop : slot -> M W unit;
  do_klass : address -> M W unit;
  do_cld : address -> M W unit;
  do_metadata : M W bool
}.
Arguments Build {W}.
Arguments do_oop_nv {W} _ _ _.
Arguments do_klass_nv {W} _ _ _.
Arguments do_cld_nv {W} _ _ _.
Arguments do_metadata_nv {W} _ _.
Arguments do_oop {W} _ _ _.
Arguments do_klass {W} _ _ _.
Arguments do_cld {W} _ _ _.
Arguments do_metadata {W} _ _.

(** The object behind its [OopClosure*] base pointer: only the virtual
    [do_oop] is reachable. *)
Definition as_OopClosure {W} (cl : t W) : OopClosure.t W :=
  OopClosure.Build (do_oop cl).
End OopClosureType.

(** ** ExtendedOopClosure *)
Module ExtendedOopClosure.
Inductive ReferenceIterationMode : Type :=
| DO_DISCOVERY
| DO_DISCOVERED_AND_DISCOVERY
| DO_FIELDS.

Record t : Type := Build { _ref_discoverer : address }.

(** [ExtendedOopClosure(ReferenceDiscoverer* rd) : _ref_discoverer(rd) { }] *)
Definition new (rd : address) : t := Build rd.

(** [ExtendedOopClosure() : _ref_discoverer(NULL) { }] *)
Definition new_default : t := Build NULL.

Definition set_ref_discoverer_internal (this : t) (rd : address) : t :=
  Build rd.

Definition ref_discoverer (this : t) : address := _ref_discoverer this.

Definition reference_iteration_mode (this : t) : ReferenceIterationMode :=
  DO_DISCOVERY.

Definition do_metadata_nv (this : t) : bool := false.
Definition do_metadata (this : t) : bool := do_metadata_nv this.

Definition do_klass_nv {W} (b : build) (this : t) (k : address) : M W unit :=
  ShouldNotReachHere b.
Definition do_klass {W} (b : build) (this : t) (k : address) : M W unit :=
  do_klass_nv b this k.

Definition do_cld_nv {W} (b : build) (this : t) (cld : address) : M W unit :=
  ShouldNotReachHere b.
Definition do_cld {W} (b : build) (this : t) (cld : address) : M W unit :=
  do_cld_nv b this cld.

Definition idempotent (this : t) : bool := false.

(** A concrete subclass that supplies the two [do_oop] members ([do_oop]
    is pure virtual here, [do_oop_nv] is not declared) and inherits the
    rest. *)
Definition subclass {W} (b : build) (this : t)
    (oop_nv oop : slot -> M W unit) : OopClosureType.t W :=
  OopClosureType.Build oop_nv
    (do_klass_nv b this) (do_cld_nv b this) (mret (do_metadata_nv this))
    oop
    (do_klass b this) (do_cld b this) (mret (do_metadata this)).
End ExtendedOopClosure.

(** ** NoHeaderExtendedOopClosure: wrapper closure only used to implement
    [oop_iterate_no_header()] *)
Module NoHeaderExtendedOopClosure.
Record t (W : Type) : Type := Build {
  super : ExtendedOopClosure.t;
  _wrapped_closure : OopClosure.t W
}.
Arguments Build {W}.
Arguments super {W}.
Arguments _wrapped_closure {W}.

(** [NoHeaderExtendedOopClosure(OopClosure* cl) : _wrapped_closure(cl) {}] *)
Definition new {W} (cl : OopClosure.t W) : t W :=
  Build ExtendedOopClosure.new_default cl.

(** "Warning: this calls the virtual version do_oop in the the wrapped
    closure." *)
Definition do_oop_nv {W} (this : t W) (p : slot) : M W unit :=
  match p with
  | oop_slot _ => OopClosure.do_oop (_wrapped_closure this) p
  | narrowOop_slot _ => OopClosure.do_oop (_wrapped_closure this) p
  end.

Definition do_oop {W} (b : build) (this : t W) (p : slot) : M W unit :=
  match p with
  | oop_slot _ =>
      assert b false "Only the _nv versions should be used" ;;
      OopClosure.do_oop (_wrapped_closure this) p
  | narrowOop_slot _ =>
      assert b false "Only the _nv versions should be used" ;;
      OopClosure.do_oop (_wrapped_closure this) p
  end.

(** The class as a [Devirtualizer] call site sees it. *)
Definition class {W} (b : build) (this : t W) : OopClosureType.t W :=
  ExtendedOopClosure.subclass b (super this) (do_oop_nv this) (do_oop b this).
End NoHeaderExtendedOopClosure.

(** ** MetadataAwareOopClosure: the base class for all concurrent marking
    closures that participate in class unloading *)
Module MetadataAwareOopClosure.
Record t : Type := Build { super : ExtendedOopClosure.t }.

Definition new_default : t := Build ExtendedOopClosure.new_default.
Definition new (rd : address) : t := Build (ExtendedOopClosure.new rd).

Definition do_metadata_nv (this : t) : bool := true.
Definition do_metadata (this : t) : bool := do_metadata_nv this.

(** [void do_klass_nv(Klass* k);] and [void do_cld_nv(ClassLoaderData* cld);]
    are declared here and defined in iterator.inline.hpp, which is not part
    of the source: their bodies are parameters. *)
Record inline_bodies (W : Type) : Type := Bodies {
  do_klass_nv : t -> address -> M W unit;
  do_cld_nv : t -> address -> M W unit
}.
Arguments Bodies {W}.
Arguments do_klass_nv {W}.
Arguments do_cld_nv {W}.

Definition do_klass {W} (I : inline_bodies W) (this : t) (k : address)
  : M W unit :=
  do_klass_nv I this k.

Definition do_cld {W} (I : inline_bodies W) (this : t) (cld : address)
  : M W unit :=
  do_cld_nv I this cld.

(** A concrete subclass that supplies the two [do_oop] members and inherits
    the rest. *)
Definition subclass {W} (I : inline_bodies W) (this : t)
    (oop_nv oop : slot -> M W unit) : OopClosureType.t W :=
  OopClosureType.Build oop_nv
    (do_klass_nv I this) (do_cld_nv I this) (mret (do_metadata_nv this))
    oop
    (do_klass I this) (do_cld I this) (mret (do_metadata this)).
End MetadataAwareOopClosure.

(** ** BlkClosureCareful: a version of BlkClosure that is expected to be
    robust in the face of possibly uninitialized objects *)
Module BlkClosureCareful.
Record t (W : Type) : Type := Build {
  do_blk_careful : address -> M W Z
}.
Arguments Build {W}.
Arguments do_blk_careful {W}.

Definition do_blk {W} (b : build) (this : t W) (addr : address) : M W Z :=
  guarantee b false "call do_blk_careful instead" ;;
  mret 0.
End BlkClosureCareful.

(** ** SerializeClosure: abstract closure for serializing data *)
Module SerializeClosure.
(** [reading()] is [const]: it reads the closure's state and leaves it. *)
Record t (W : Type) : Type := Build {
  reading : W -> bool;
  do_ptr : address -> M W unit;
  do_u4 : address -> M W unit;
  do_region : address -> Z -> M W unit;
  do_tag : Z -> M W unit;
  do_oop : address -> M W unit
}.
Arguments Build {W}.
Arguments reading {W}.

Definition writing {W} (this : t W) (w : W) : bool :=
  negb (reading this w).
End SerializeClosure.

(** ** MarkingCodeBlobClosure: "Called for each code blob, but at most once
    per unique blob." *)
Module MarkingCodeBlobClosure.

(** Modelled from the spec: [MarkingCodeBlobClosure::do_code_blob] and the
    marker it tests are defined outside the header (iterator.cpp, nmethod),
    which is not part of the source.  Spec 4.3: "a per-traversal-pass marker
    so that a code region reachable from multiple roots [...] is visited at
    most once per pass; the marker must be reset exactly once per new pass";
    spec 5: "marking already visited must be an atomic test-and-set [...]
    only one of them must perform the inner visit".  The state of a pass is
    the set of marked code blobs next to the world of the inner visitor. *)
Record pass (W : Type) : Type := Pass {
  marked : gset Z;
  world : W
}.
Arguments Pass {W}.
Arguments marked {W}.
Arguments world {W}.

(** Modelled from the spec: the atomic test-and-set of the marker; returns
    whether the blob was already marked. *)
Definition test_set_mark {W} (cb : address) : M (pass W) bool :=
  fun s => Done (bool_decide (cb ∈ marked s),
                 Pass ({[cb]} ∪ marked s) (world s)).

(** The inner visit acts on the inner visitor's world only. *)
Definition inner_visit {W} (m : M W unit) : M (pass W) unit :=
  fun s =>
    match m (world s) with
    | Done (a, w') => Done (a, Pass (marked s) w')
    | Fatal c msg => Fatal c msg
    end.

(** Modelled from the spec: [virtual void do_code_blob(CodeBlob* cb)], with
    the inherited visit of one code region as [inner]. *)
Definition do_code_blob {W} (inner : address -> M W unit) (cb : address)
  : M (pass W) unit :=
  was_marked ← test_set_mark cb;
  if (was_marked : bool) then mret tt else inner_visit (inner cb).

(** Modelled from the spec: the pass boundary resets every marker. *)
Definition reset_marks {W} (s : pass W) : pass W := Pass ∅ (world s).

(** A driver reaching code blobs from a list of roots, in order. *)
Fixpoint traverse {W} (inner : address -> M W unit) (roots : list address)
  : M (pass W) unit :=
  match roots with
  | [] => mret tt
  | cb :: rest => do_code_blob inner cb ;; traverse inner rest
  end.

(** An inner visitor that records the code blobs it is applied to. *)
Definition recording_visitor (cb : address) : M (list Z) unit :=
  fun log => Done (tt, log ++ [cb]).

(** How many times the inner visitor was applied to [cb]. *)
Definition visits (cb : address) (log : list Z) : nat :=
  length (filter (fun x => x = cb) log).

(** The code blobs a driver reaches for the first time in the pass, in the
    order it reaches them, given the blobs [m] already marked. *)
Fixpoint first_reached (m : gset Z) (roots : list address) : list address :=
  match roots with
  | [] => []
  | cb :: rest =>
      if bool_decide (cb ∈ m)
      then first_reached ({[cb]} ∪ m) rest
      else cb :: first_reached ({[cb]} ∪ m) rest
  end.

(** The inner visitor applied to each blob of a list, in order. *)
Fixpoint apply_all {W} (inner : address -> M W unit) (l : list address)
  : M W unit :=
  match l with
  | [] => mret tt
  | cb :: rest => inner cb ;; apply_all inner rest
  end.
End MarkingCodeBlobClosure.

(** ** Devirtualizer: dispatch to the [ExtendedOopClosure] functions *)
Module Devirtualizer.

(** Modelled from the spec: the member templates of [Devirtualizer<true>]
    and [Devirtualizer<false>] are declared in the header and defined in
    iterator.inline.hpp, which is not part of the source.  Header: "If
    use_non_virtual_call is true, the non-virtual versions are called (E.g.
    do_oop_nv), otherwise the virtual versions are called (E.g. do_oop)";
    spec 4.2: "The same selector governs dispatch for visiting a reference
    slot, visiting class metadata, visiting class-loader metadata, and
    reading the Metadata Flag". *)
Definition do_oop {W} (use_non_virtual_call : bool)
    (closure : OopClosureType.t W) (p : slot) : M W unit :=
  if use_non_virtual_call
  then OopClosureType.do_oop_nv closure p
  else OopClosureType.do_oop closure p.

Definition do_klass {W} (use_non_virtual_call : bool)
    (closure : OopClosureType.t W) (k : address) : M W unit :=
  if use_non_virtual_call
  then OopClosureType.do_klass_nv closure k
  else OopClosureType.do_klass closure k.

Definition do_cld {W} (use_non_virtual_call : bool)
    (closure : OopClosureType.t W) (cld : address) : M W unit :=
  if use_non_virtual_call
  then OopClosureType.do_cld_nv closure cld
  else OopClosureType.do_cld closure cld.

Definition do_metadata {W} (use_non_virtual_call : bool)
    (closure : OopClosureType.t W) : M W bool :=
  if use_non_virtual_call
  then OopClosureType.do_metadata_nv closure
  else OopClosureType.do_metadata closure.
End Devirtualizer.

(** ** Keeping the virtual and the non-virtual members together

    "The virtual (without suffix) and the non-virtual (with _nv suffix) need
    to be updated together, or else the devirtualization will break." *)
Definition updated_together {W} (cl : OopClosureType.t W) : Prop :=
  (forall p w, OopClosureType.do_oop cl p w = OopClosureType.do_oop_nv cl p w)
  /\ (forall k w,
        OopClosureType.do_klass cl k w = OopClosureType.do_klass_nv cl k w)
  /\ (forall cld w,
        OopClosureType.do_cld cl cld w = OopClosureType.do_cld_nv cl cld w)
  /\ (forall w,
        OopClosureType.do_metadata cl w = OopClosureType.do_metadata_nv cl w).

(** ** Sample closures and worlds *)
Module Sample.

Definition empty_heap : Heap := mkHeap ∅ ∅.

(** A heap with one full-width and one compressed slot. *)
Definition small_heap : Heap := mkHeap {[ 4096 := 77 ]} {[ 8192 := 5 ]}.

(** A visitor that overwrites the slot it is applied to with [NULL]. *)
Definition clear_slot (p : slot) : M Heap unit :=
  fun h =>
    match p with
    | oop_slot a => Done (tt, mkHeap (<[a := 0]> (oops h)) (narrowOops h))
    | narrowOop_slot a => Done (tt, mkHeap (oops h) (<[a := 0]> (narrowOops h)))
    end.

Definition ClearingClosure : OopClosure.t Heap := OopClosure.Build clear_slot.

(** [NoHeaderExtendedOopClosure] around the shared [do_nothing_cl]. *)
Definition no_header_nothing (b : build) : OopClosureType.t Heap :=
  NoHeaderExtendedOopClosure.class b
    (NoHeaderExtendedOopClosure.new
       (DoNothingClosure.as_OopClosure do_nothing_cl)).

(** A metadata-aware closure whose metadata visits clear the slot at the
    metadata's address and whose [do_oop] members both clear the slot. *)
Definition clearing_bodies : MetadataAwareOopClosure.inline_bodies Heap :=
  MetadataAwareOopClosure.Bodies
    (fun _ k => clear_slot (oop_slot k))
    (fun _ cld => clear_slot (oop_slot cld)).

Definition MetadataClearingClosure : OopClosureType.t Heap :=
  MetadataAwareOopClosure.subclass clearing_bodies
    MetadataAwareOopClosure.new_default clear_slot clear_slot.

(** A subclass of [ExtendedOopClosure] that overrides the virtual
    [do_metadata] alone and inherits [do_metadata_nv]. *)
Definition SkewedClosure : OopClosureType.t Heap :=
  OopClosureType.Build clear_slot
    (ExtendedOopClosure.do_klass_nv product ExtendedOopClosure.new_default)
    (ExtendedOopClosure.do_cld_nv product ExtendedOopClosure.new_default)
    (mret (ExtendedOopClosure.do_metadata_nv ExtendedOopClosure.new_default))
    clear_slot
    (ExtendedOopClosure.do_klass product ExtendedOopClosure.new_default)
    (ExtendedOopClosure.do_cld product ExtendedOopClosure.new_default)
    (mret true).

(** A serialization closure whose mode is a flag in its state. *)
Definition FlagSerializer : SerializeClosure.t bool :=
  SerializeClosure.Build (fun st => st)
    (fun _ => mret tt) (fun _ => mret tt) (fun _ _ => mret tt)
    (fun _ => mret tt) (fun _ => mret tt).
End Sample.

(** ** Repeated stores

    [store_symbol] applied to one slot with each value of a list in turn. *)
Fixpoint store_symbols (w : Z) (mem : gmap Z Z) (p : address) (syms : list Z)
  : option (gmap Z Z) :=
  match syms with
  | [] => Some mem
  | sym :: rest =>
      match SymbolClosure.store_symbol w mem p sym with
      | Some mem' => store_symbols w mem' p rest
      | None => None
      end
  end.

(** ** The metadata protocol

    The comment above [do_metadata_nv] in [ExtendedOopClosure]: "If the
    do_metadata functions return true, we invoke the following when running
    oop_iterate(): 1) do_klass on the header klass pointer.  2) do_klass on
    the klass pointer in the mirrors.  3) do_cld on the class loader data in
    class loaders." *)
Inductive metadata : Type :=
| header_klass (k : address)
| mirror_klass (k : address)
| loader_cld (cld : address).

(** One such invocation, as the comment describes it, through either
    dispatch path. *)
Definition visit_metadata {W} (use_non_virtual_call : bool)
    (closure : OopClosureType.t W) (md : metadata) : M W unit :=
  wanted ← Devirtualizer.do_metadata use_non_virtual_call closure;
  if (wanted : bool)
  then match md with
       | header_klass k => Devirtualizer.do_klass use_non_virtual_call closure k
       | mirror_klass k => Devirtualizer.do_klass use_non_virtual_call closure k
       | loader_cld cld => Devirtualizer.do_cld use_non_virtual_call closure cld
       end
  else mret tt.

(** ** The extended closure classes of the header, at their own static type

    A closure whose class is [NoHeaderExtendedOopClosure], or a class that
    takes its metadata members from [ExtendedOopClosure] or from
    [MetadataAwareOopClosure] and supplies the two [do_oop] members, which
    the header leaves to it ([do_oop] is pure virtual, [do_oop_nv] is not
    declared). *)
Inductive header_closure (W : Type) : Type :=
| inherits_ExtendedOopClosure
    (this : ExtendedOopClosure.t) (oop_nv oop : slot -> M W unit)
| inherits_MetadataAwareOopClosure
    (bodies : MetadataAwareOopClosure.inline_bodies W)
    (this : MetadataAwareOopClosure.t) (oop_nv oop : slot -> M W unit)
| is_NoHeaderExtendedOopClosure (this : NoHeaderExtendedOopClosure.t W).
Arguments inherits_ExtendedOopClosure {W}.
Arguments inherits_MetadataAwareOopClosure {W}.
Arguments is_NoHeaderExtendedOopClosure {W}.

(** The closure as a [Devirtualizer] call site sees it when
    [OopClosureType] is the closure's own class. *)
Definition class_of {W} (b : build) (c : header_closure W)
  : OopClosureType.t W :=
  match c with
  | inherits_ExtendedOopClosure this oop_nv oop =>
      ExtendedOopClosure.subclass b this oop_nv oop
  | inherits_MetadataAwareOopClosure bodies this oop_nv oop =>
      MetadataAwareOopClosure.subclass bodies this oop_nv oop
  | is_NoHeaderExtendedOopClosure this =>
      NoHeaderExtendedOopClosure.class b this
  end.

(** The two [do_oop] members that the class supplies itself have the same
    outcome.  [NoHeaderExtendedOopClosure] supplies none: both of its
    members are the header's. *)
Definition own_do_oop_together {W} (c : header_closure W) : Prop :=
  match c with
  | inherits_ExtendedOopClosure _ oop_nv oop =>
      forall p w, oop p w = oop_nv p w
  | inherits_MetadataAwareOopClosure _ _ oop_nv oop =>
      forall p w, oop p w = oop_nv p w
  | is_NoHeaderExtendedOopClosure _ => True
  end.

(** Whether the virtual [do_oop] of the class starts with an assert that
    the build checks. *)
Definition virtual_do_oop_guarded {W} (b : build) (c : header_closure W)
  : bool :=
  match c with
  | inherits_ExtendedOopClosure _ _ _ => false
  | inherits_MetadataAwareOopClosure _ _ _ _ => false
  | is_NoHeaderExtendedOopClosure _ => check_enabled check_assert b
  end.

(** A metadata-aware closure whose two [do_oop] members clear the slot. *)
Definition metadata_clearing_closure : header_closure Heap :=
  inherits_MetadataAwareOopClosure Sample.clearing_bodies
    MetadataAwareOopClosure.new_default Sample.clear_slot Sample.clear_slot.

(** * Properties *)

(** ** Bits of the tagged-symbol accessors *)
Section SymbolBits.
Import SymbolClosure.
Variable w : Z.
Hypothesis Hw : 0 < w.

Lemma to_Symbol_ptr_intptr_t v : to_Symbol_ptr w (intptr_t w v) = v mod 2 ^ w.
Proof.
  unfold to_Symbol_ptr, intptr_t. destruct (v <? 2 ^ (w - 1)); [done|].
  replace (v - 2 ^ w) with (v + (-1) * 2 ^ w) by lia.
  apply Z.mod_add. lia.
Qed.

Lemma testbit_intptr_t v i :
  0 <= i < w -> Z.testbit (intptr_t w v) i = Z.testbit v i.
Proof.
  intros Hi.
  rewrite <- (Z.mod_pow2_bits_low (intptr_t w v) w i) by lia.
  fold (to_Symbol_ptr w (intptr_t w v)). rewrite to_Symbol_ptr_intptr_t.
  apply Z.mod_pow2_bits_low. lia.
Qed.

Lemma testbit_pointer_high v i :
  is_pointer w v -> w <= i -> Z.testbit v i = false.
Proof.
  intros Hv Hi. rewrite <- (Z.mod_small v (2 ^ w)) by exact Hv.
  apply Z.mod_pow2_bits_high. lia.
Qed.

Lemma testbit_to_Symbol_ptr x i :
  0 <= i ->
  Z.testbit (to_Symbol_ptr w x) i = if i <? w then Z.testbit x i else false.
Proof.
  intros Hi. unfold to_Symbol_ptr. destruct (Z.ltb_spec i w).
  - apply Z.mod_pow2_bits_low; lia.
  - apply Z.mod_pow2_bits_high; lia.
Qed.

Lemma testbit_one i : 0 <= i -> Z.testbit 1 i = (i =? 0).
Proof.
  intros Hi. destruct (Z.eqb_spec i 0) as [->|]; [done|].
  change 1 with (Z.ones 1). apply Z.ones_spec_high. lia.
Qed.

Lemma testbit_lnot_one i : 0 <= i -> Z.testbit (Z.lnot 1) i = negb (i =? 0).
Proof. intros Hi. rewrite Z.lnot_spec by done. by rewrite testbit_one. Qed.

(** What [load_symbol] returns, bit by bit. *)
Lemma testbit_loaded v i :
  0 <= i ->
  Z.testbit (to_Symbol_ptr w (Z.land (intptr_t w v) (Z.lnot 1))) i
  = (i <? w) && Z.testbit v i && negb (i =? 0).
Proof.
  intros Hi. rewrite testbit_to_Symbol_ptr by done.
  destruct (Z.ltb_spec i w); [|done].
  by rewrite Z.land_spec, testbit_intptr_t, testbit_lnot_one by lia.
Qed.

(** What [store_symbol] writes, bit by bit. *)
Lemma testbit_stored sym v i :
  0 <= i ->
  Z.testbit
    (to_Symbol_ptr w (Z.lor (intptr_t w sym) (Z.land (intptr_t w v) 1))) i
  = (i <? w) && (Z.testbit sym i || Z.testbit v i && (i =? 0)).
Proof.
  intros Hi. rewrite testbit_to_Symbol_ptr by done.
  destruct (Z.ltb_spec i w); [|done].
  by rewrite Z.lor_spec, Z.land_spec, !testbit_intptr_t, testbit_one by lia.
Qed.

(** The stored value is a pointer again. *)
Lemma to_Symbol_ptr_is_pointer x : is_pointer w (to_Symbol_ptr w x).
Proof. apply Z.mod_pos_bound. lia. Qed.

(** C2 (as amended): for a slot holding any pointer and a reference value
    whose least-significant bit is clear, [store_symbol] succeeds,
    [load_symbol] on the stored slot returns the value whether the side flag
    of the slot was set or clear, the side flag of the slot is what it was,
    and no other slot changes. *)
Theorem load_symbol_store_symbol (mem : gmap Z Z) (p old sym : Z) :
  mem !! p = Some old ->
  is_pointer w old ->
  is_pointer w sym ->
  side_flag sym = false ->
  exists mem' new,
    store_symbol w mem p sym = Some mem'
    /\ load_symbol w mem' p = Some sym
    /\ mem' !! p = Some new
    /\ side_flag new = side_flag old
    /\ (forall q, q <> p -> mem' !! q = mem !! q).
Proof.
  intros Hp Hold Hsym Hflag. unfold store_symbol, load_symbol. rewrite Hp.
  eexists _, _. split; [reflexivity|]. rewrite lookup_insert_eq.
  repeat split.
  - f_equal. apply Z.bits_inj'. intros i Hi.
    rewrite testbit_loaded, testbit_stored by done.
    destruct (Z.ltb_spec i w); simpl.
    + destruct (Z.eqb_spec i 0) as [->|]; simpl.
      * by rewrite andb_false_r.
      * by rewrite andb_false_r, orb_false_r, andb_true_r.
    + symmetry. by apply testbit_pointer_high.
  - unfold side_flag in *. rewrite testbit_stored by done.
    rewrite Hflag. simpl. rewrite andb_true_r.
    destruct (Z.ltb_spec 0 w); [done|lia].
  - intros q Hq. by rewrite lookup_insert_ne.
Qed.

End SymbolBits.

(** C2, witness: a slot at 4096 holding 8193 (flag set), value 12288, on a
    64-bit word. *)
Lemma load_symbol_store_symbol_witness :
  0 < 64
  /\ ({[ 4096 := 8193 ]} : gmap Z Z) !! 4096 = Some 8193
  /\ SymbolClosure.is_pointer 64 8193
  /\ SymbolClosure.is_pointer 64 12288
  /\ SymbolClosure.side_flag 12288 = false
  /\ exists mem' new,
       SymbolClosure.store_symbol 64 {[ 4096 := 8193 ]} 4096 12288 = Some mem'
       /\ SymbolClosure.load_symbol 64 mem' 4096 = Some 12288
       /\ mem' !! 4096 = Some new
       /\ SymbolClosure.side_flag new = SymbolClosure.side_flag 8193
       /\ (forall q, q <> 4096 ->
             mem' !! q = ({[ 4096 := 8193 ]} : gmap Z Z) !! q).
Proof.
  assert (H64 : 0 < 64) by lia.
  assert (Hold : SymbolClosure.is_pointer 64 8193)
    by (unfold SymbolClosure.is_pointer; lia).
  assert (Hsym : SymbolClosure.is_pointer 64 12288)
    by (unfold SymbolClosure.is_pointer; lia).
  repeat (split; [first [exact H64 | exact Hold | exact Hsym | reflexivity]|]).
  exact (load_symbol_store_symbol 64 H64 {[ 4096 := 8193 ]} 4096 8193 12288
           eq_refl Hold Hsym eq_refl).
Defined.

(** C2, as stated, fails on a value whose least-significant bit is set:
    storing 4097 into a slot that holds 8192 (flag clear) and loading it
    back gives 4096, and the side flag of the slot has changed. *)
Lemma load_symbol_store_symbol_tagged_value :
  SymbolClosure.store_symbol 64 {[ 4096 := 8192 ]} 4096 4097
    = Some {[ 4096 := 4097 ]}
  /\ SymbolClosure.load_symbol 64 {[ 4096 := 4097 ]} 4096 = Some 4096
  /\ SymbolClosure.load_symbol 64 {[ 4096 := 4097 ]} 4096 <> Some 4097
  /\ SymbolClosure.side_flag 8192 = false
  /\ SymbolClosure.side_flag 4097 = true.
Proof. vm_compute. repeat split; congruence. Qed.

(** ** Defaults of the extended closures *)

(** C4: a default-constructed [ExtendedOopClosure] has no reference
    discoverer, reports [DO_DISCOVERY] as its reference iteration mode,
    answers [false] from [do_metadata_nv()] and from [do_metadata()], and
    answers [false] from [idempotent()]; a subclass that overrides none of
    these reads the same metadata flag on both members. *)
Theorem ExtendedOopClosure_defaults
    (W : Type) (b : build) (oop_nv oop : slot -> M W unit) (w : W) :
  let this := ExtendedOopClosure.new_default in
  ExtendedOopClosure.ref_discoverer this = NULL
  /\ ExtendedOopClosure.reference_iteration_mode this
     = ExtendedOopClosure.DO_DISCOVERY
  /\ ExtendedOopClosure.do_metadata_nv this = false
  /\ ExtendedOopClosure.do_metadata this = false
  /\ ExtendedOopClosure.idempotent this = false
  /\ OopClosureType.do_metadata_nv
       (ExtendedOopClosure.subclass b this oop_nv oop) w = Done (false, w)
  /\ OopClosureType.do_metadata
       (ExtendedOopClosure.subclass b this oop_nv oop) w = Done (false, w).
Proof. repeat split. Qed.

(** C5: [MetadataAwareOopClosure] answers [true] from [do_metadata_nv()]
    and from [do_metadata()], however it was constructed, and its virtual
    [do_klass] and [do_cld] run the class's own [do_klass_nv] and
    [do_cld_nv] bodies in place of the guarded defaults of
    [ExtendedOopClosure]. *)
Theorem MetadataAwareOopClosure_defaults
    (W : Type) (I : MetadataAwareOopClosure.inline_bodies W)
    (this : MetadataAwareOopClosure.t) (oop_nv oop : slot -> M W unit)
    (k cld : address) (w : W) :
  MetadataAwareOopClosure.do_metadata_nv this = true
  /\ MetadataAwareOopClosure.do_metadata this = true
  /\ MetadataAwareOopClosure.do_klass I this k w
     = MetadataAwareOopClosure.do_klass_nv I this k w
  /\ MetadataAwareOopClosure.do_cld I this cld w
     = MetadataAwareOopClosure.do_cld_nv I this cld w
  /\ (let cl := MetadataAwareOopClosure.subclass I this oop_nv oop in
      OopClosureType.do_metadata cl w = Done (true, w)
      /\ OopClosureType.do_metadata_nv cl w = Done (true, w)
      /\ OopClosureType.do_klass cl k w
         = MetadataAwareOopClosure.do_klass_nv I this k w
      /\ OopClosureType.do_cld cl cld w
         = MetadataAwareOopClosure.do_cld_nv I this cld w).
Proof. repeat split. Qed.

(** ** The discarding closure *)

(** C8: [DoNothingClosure] has no state (every instance is the shared
    [do_nothing_cl]), and its [do_oop] on a full-width slot and on a
    compressed slot completes and leaves the whole world as it was; in a
    heap of slots, every slot holds after the visit what it held before. *)
Theorem DoNothingClosure_do_oop_frame
    (W : Type) (this : DoNothingClosure.t) (a : address) (w : W)
    (h : Heap) (q : slot) :
  this = do_nothing_cl
  /\ DoNothingClosure.do_oop this (oop_slot a) w = Done (tt, w)
  /\ DoNothingClosure.do_oop this (narrowOop_slot a) w = Done (tt, w)
  /\ OopClosure.do_oop (DoNothingClosure.as_OopClosure this) (oop_slot a) w
     = Done (tt, w)
  /\ OopClosure.do_oop (DoNothingClosure.as_OopClosure this)
       (narrowOop_slot a) w = Done (tt, w)
  /\ (exists h',
        DoNothingClosure.do_oop this (oop_slot a) h = Done (tt, h')
        /\ slot_contents h' q = slot_contents h q)
  /\ (exists h',
        DoNothingClosure.do_oop this (narrowOop_slot a) h = Done (tt, h')
        /\ slot_contents h' q = slot_contents h q).
Proof.
  destruct this. repeat split; by exists h.
Qed.

(** ** The serialization closure *)

(** C9: for every [SerializeClosure] in every state, [writing()] is the
    negation of [reading()] and [reading()] the negation of [writing()]:
    exactly one of the two is true. *)
Theorem SerializeClosure_writing_reading
    (W : Type) (this : SerializeClosure.t W) (w : W) :
  SerializeClosure.writing this w = negb (SerializeClosure.reading this w)
  /\ SerializeClosure.reading this w = negb (SerializeClosure.writing this w)
  /\ xorb (SerializeClosure.writing this w) (SerializeClosure.reading this w)
     = true.
Proof.
  unfold SerializeClosure.writing.
  destruct (SerializeClosure.reading this w); repeat split.
Qed.

(** The sample serializer writes exactly when its flag says it does not
    read. *)
Example FlagSerializer_modes :
  SerializeClosure.writing Sample.FlagSerializer true = false
  /\ SerializeClosure.writing Sample.FlagSerializer false = true.
Proof. split; reflexivity. Qed.

(** ** Guards on protocol misuse *)

(** A fatal outcome ends the run: whatever would follow is not run. *)
Lemma fatal_is_final {W A B} (m : M W A) (k : A -> M W B) (w : W) c msg :
  m w = Fatal c msg -> (m ≫= k) w = Fatal c msg.
Proof. intros H. unfold mbind, M_bind. by rewrite H. Qed.

(** C6: on a plain [ExtendedOopClosure], [do_klass] and [do_cld] run into
    [ShouldNotReachHere()], and [do_blk] of [BlkClosureCareful] runs into
    [guarantee(false, ...)].  In a debug build each of them is fatal, and so
    is any computation that continues from it; in a product build the guard
    is not checked: the metadata visits complete without effect and
    [do_blk] returns 0. *)
Theorem protocol_misuse_guards
    (W A : Type) (this : ExtendedOopClosure.t) (blk : BlkClosureCareful.t W)
    (k cld addr : address) (w : W)
    (next : unit -> M W A) (next_blk : Z -> M W A) :
  ExtendedOopClosure.do_klass debug this k w
    = Fatal check_ShouldNotReachHere "ShouldNotReachHere()"
  /\ ExtendedOopClosure.do_cld debug this cld w
     = Fatal check_ShouldNotReachHere "ShouldNotReachHere()"
  /\ BlkClosureCareful.do_blk debug blk addr w
     = Fatal check_guarantee "call do_blk_careful instead"
  /\ (ExtendedOopClosure.do_klass debug this k ≫= next) w
     = Fatal check_ShouldNotReachHere "ShouldNotReachHere()"
  /\ (ExtendedOopClosure.do_cld debug this cld ≫= next) w
     = Fatal check_ShouldNotReachHere "ShouldNotReachHere()"
  /\ (BlkClosureCareful.do_blk debug blk addr ≫= next_blk) w
     = Fatal check_guarantee "call do_blk_careful instead"
  /\ ExtendedOopClosure.do_klass product this k w = Done (tt, w)
  /\ ExtendedOopClosure.do_cld product this cld w = Done (tt, w)
  /\ BlkClosureCareful.do_blk product blk addr w = Done (0, w).
Proof. repeat split. Qed.

(** ** The wrapper used by [oop_iterate_no_header()] *)

(** Both members of [NoHeaderExtendedOopClosure] forward to the virtual
    [do_oop] of the wrapped closure; the virtual one checks
    [assert(false, ...)] first. *)
Lemma NoHeaderExtendedOopClosure_do_oop_nv {W}
    (this : NoHeaderExtendedOopClosure.t W) (p : slot) :
  NoHeaderExtendedOopClosure.do_oop_nv this p
  = OopClosure.do_oop (NoHeaderExtendedOopClosure._wrapped_closure this) p.
Proof. by destruct p. Qed.

Lemma NoHeaderExtendedOopClosure_do_oop {W} (b : build)
    (this : NoHeaderExtendedOopClosure.t W) (p : slot) :
  NoHeaderExtendedOopClosure.do_oop b this p
  = (assert b false "Only the _nv versions should be used" ;;
     NoHeaderExtendedOopClosure.do_oop_nv this p).
Proof. by destruct p. Qed.

(** C7, as stated, fails: in a debug build the virtual [do_oop] of the
    wrapper, on either kind of slot, is fatal ("Only the _nv versions should
    be used"), while [do_oop_nv] completes. *)
Lemma NoHeaderExtendedOopClosure_virtual_path_fatal :
  let this :=
    NoHeaderExtendedOopClosure.new (W := Heap)
      (DoNothingClosure.as_OopClosure do_nothing_cl) in
  NoHeaderExtendedOopClosure.do_oop debug this (oop_slot 4096)
    Sample.small_heap
  = Fatal check_assert "Only the _nv versions should be used"
  /\ NoHeaderExtendedOopClosure.do_oop debug this (narrowOop_slot 8192)
       Sample.small_heap
     = Fatal check_assert "Only the _nv versions should be used"
  /\ NoHeaderExtendedOopClosure.do_oop_nv this (oop_slot 4096)
       Sample.small_heap
     = Done (tt, Sample.small_heap)
  /\ NoHeaderExtendedOopClosure.do_oop_nv this (narrowOop_slot 8192)
       Sample.small_heap
     = Done (tt, Sample.small_heap).
Proof. repeat split. Qed.

(** C7 (as amended): [NoHeaderExtendedOopClosure] wraps a plain
    [OopClosure] behind the [ExtendedOopClosure] contract, whose defaults it
    inherits.  It is to be called through its non-virtual members only:
    [do_oop_nv] never trips a guard of its own and is exactly the virtual
    [do_oop] of the wrapped closure (not that closure's [do_oop_nv]), while
    the virtual [do_oop] is guarded by [assert(false, ...)], fatal where
    asserts are checked and the same forwarding call elsewhere. *)
Theorem NoHeaderExtendedOopClosure_contract
    (W : Type) (b : build) (cl : OopClosureType.t W) (p : slot) (w : W) :
  let this :=
    NoHeaderExtendedOopClosure.new (OopClosureType.as_OopClosure cl) in
  NoHeaderExtendedOopClosure.do_oop_nv this p w = OopClosureType.do_oop cl p w
  /\ NoHeaderExtendedOopClosure.do_oop b this p w
     = (if check_enabled check_assert b
        then Fatal check_assert "Only the _nv versions should be used"
        else OopClosureType.do_oop cl p w)
  /\ OopClosureType.do_oop_nv (NoHeaderExtendedOopClosure.class b this) p w
     = OopClosureType.do_oop cl p w
  /\ OopClosureType.do_metadata (NoHeaderExtendedOopClosure.class b this) w
     = Done (false, w)
  /\ ExtendedOopClosure.reference_iteration_mode
       (NoHeaderExtendedOopClosure.super this)
     = ExtendedOopClosure.DO_DISCOVERY.
Proof.
  intros this. rewrite NoHeaderExtendedOopClosure_do_oop.
  repeat split; try by destruct p.
  destruct b; [|done]. simpl. by destruct p.
Qed.

(** C10: in a build where the assert is not checked, the virtual [do_oop]
    of [NoHeaderExtendedOopClosure] and its [do_oop_nv] have the same
    outcome on a full-width slot and on a compressed slot, namely that of
    the virtual [do_oop] of the wrapped closure on that same slot. *)
Theorem NoHeaderExtendedOopClosure_do_oop_forwards
    (W : Type) (b : build) (this : NoHeaderExtendedOopClosure.t W)
    (a : address) (w : W) :
  check_enabled check_assert b = false ->
  let wrapped := NoHeaderExtendedOopClosure._wrapped_closure this in
  NoHeaderExtendedOopClosure.do_oop_nv this (oop_slot a) w
    = OopClosure.do_oop wrapped (oop_slot a) w
  /\ NoHeaderExtendedOopClosure.do_oop b this (oop_slot a) w
     = OopClosure.do_oop wrapped (oop_slot a) w
  /\ NoHeaderExtendedOopClosure.do_oop_nv this (narrowOop_slot a) w
     = OopClosure.do_oop wrapped (narrowOop_slot a) w
  /\ NoHeaderExtendedOopClosure.do_oop b this (narrowOop_slot a) w
     = OopClosure.do_oop wrapped (narrowOop_slot a) w.
Proof.
  intros Hb wrapped. subst wrapped.
  repeat split; try reflexivity;
    unfold NoHeaderExtendedOopClosure.do_oop, assert, vm_check, mbind, M_bind;
    rewrite Hb; simpl;
    by destruct (OopClosure.do_oop _ _ w) as [[[] ?]|].
Qed.

(** C10, witness: the wrapper around a closure that clears the slot, in a
    product build. *)
Lemma NoHeaderExtendedOopClosure_do_oop_forwards_witness :
  check_enabled check_assert product = false
  /\ (let this := NoHeaderExtendedOopClosure.new Sample.ClearingClosure in
      NoHeaderExtendedOopClosure.do_oop_nv this (oop_slot 4096)
        Sample.small_heap
      = OopClosure.do_oop Sample.ClearingClosure (oop_slot 4096)
          Sample.small_heap
      /\ NoHeaderExtendedOopClosure.do_oop product this (oop_slot 4096)
           Sample.small_heap
         = OopClosure.do_oop Sample.ClearingClosure (oop_slot 4096)
             Sample.small_heap
      /\ NoHeaderExtendedOopClosure.do_oop_nv this (narrowOop_slot 4096)
           Sample.small_heap
         = OopClosure.do_oop Sample.ClearingClosure (narrowOop_slot 4096)
             Sample.small_heap
      /\ NoHeaderExtendedOopClosure.do_oop product this (narrowOop_slot 4096)
           Sample.small_heap
         = OopClosure.do_oop Sample.ClearingClosure (narrowOop_slot 4096)
             Sample.small_heap).
Proof.
  split; [reflexivity|].
  exact (NoHeaderExtendedOopClosure_do_oop_forwards Heap product
           (NoHeaderExtendedOopClosure.new Sample.ClearingClosure) 4096
           Sample.small_heap eq_refl).
Defined.

(** ** The two dispatch paths *)

(** The metadata members that [ExtendedOopClosure] and
    [MetadataAwareOopClosure] define are kept together in every build, so a
    subclass is kept together as soon as its two [do_oop] members are. *)
Lemma ExtendedOopClosure_subclass_updated_together {W} (b : build)
    (this : ExtendedOopClosure.t) (oop_nv oop : slot -> M W unit) :
  (forall p w, oop p w = oop_nv p w) ->
  updated_together (ExtendedOopClosure.subclass b this oop_nv oop).
Proof. intros H. by repeat split. Qed.

Lemma MetadataAwareOopClosure_subclass_updated_together {W}
    (I : MetadataAwareOopClosure.inline_bodies W)
    (this : MetadataAwareOopClosure.t) (oop_nv oop : slot -> M W unit) :
  (forall p w, oop p w = oop_nv p w) ->
  updated_together (MetadataAwareOopClosure.subclass I this oop_nv oop).
Proof. intros H. by repeat split. Qed.

(** [NoHeaderExtendedOopClosure] is kept together where the assert of its
    virtual [do_oop] is not checked. *)
Lemma NoHeaderExtendedOopClosure_updated_together {W}
    (this : NoHeaderExtendedOopClosure.t W) :
  updated_together (NoHeaderExtendedOopClosure.class product this).
Proof.
  apply ExtendedOopClosure_subclass_updated_together.
  intros p w. by rewrite NoHeaderExtendedOopClosure_do_oop.
Qed.

(** A subclass that overrides the virtual [do_metadata] without its [_nv]
    twin reads two different metadata flags on the two paths. *)
Lemma SkewedClosure_do_metadata_differs :
  Devirtualizer.do_metadata true Sample.SkewedClosure Sample.empty_heap
    = Done (false, Sample.empty_heap)
  /\ Devirtualizer.do_metadata false Sample.SkewedClosure Sample.empty_heap
     = Done (true, Sample.empty_heap).
Proof. split; reflexivity. Qed.

(** C1, as stated, fails: on [NoHeaderExtendedOopClosure] in a debug build,
    the statically specialized path visits the slot and completes, the
    dynamically polymorphic path is fatal. *)
Lemma Devirtualizer_paths_differ :
  Devirtualizer.do_oop true (Sample.no_header_nothing debug) (oop_slot 4096)
    Sample.small_heap
  = Done (tt, Sample.small_heap)
  /\ Devirtualizer.do_oop false (Sample.no_header_nothing debug)
       (oop_slot 4096) Sample.small_heap
     = Fatal check_assert "Only the _nv versions should be used"
  /\ Devirtualizer.do_oop true (Sample.no_header_nothing debug)
       (oop_slot 4096) Sample.small_heap
     <> Devirtualizer.do_oop false (Sample.no_header_nothing debug)
          (oop_slot 4096) Sample.small_heap.
Proof. repeat split. discriminate. Qed.

(** A [MetadataAwareOopClosure] reached at the static type
    [ExtendedOopClosure] finds the [do_metadata_nv] of the base there, which
    answers [false], while its virtual [do_metadata] answers [true]. *)
Lemma MetadataAwareOopClosure_base_type_flag_differs
    (this : MetadataAwareOopClosure.t) :
  ExtendedOopClosure.do_metadata_nv (MetadataAwareOopClosure.super this)
    = false
  /\ MetadataAwareOopClosure.do_metadata this = true.
Proof. split; reflexivity. Qed.

(** C1 (as amended): take a closure whose class is
    [NoHeaderExtendedOopClosure], or a class that takes its metadata members
    from [ExtendedOopClosure] or from [MetadataAwareOopClosure] and whose
    own [do_oop] and [do_oop_nv] have the same outcome, dispatched with its
    own class as [OopClosureType].  In every build and on every input,
    visiting a [Klass], visiting a [ClassLoaderData] and reading the
    metadata flag have the same outcome through [Devirtualizer<true>] as
    through [Devirtualizer<false>]; so has visiting a reference slot, except
    on [NoHeaderExtendedOopClosure] in a build that checks its
    [assert(false, ...)], where the dynamic path is fatal. *)
Theorem Devirtualizer_paths_agree
    (W : Type) (b : build) (c : header_closure W) (p : slot)
    (k cld : address) (w : W) :
  own_do_oop_together c ->
  Devirtualizer.do_klass true (class_of b c) k w
    = Devirtualizer.do_klass false (class_of b c) k w
  /\ Devirtualizer.do_cld true (class_of b c) cld w
     = Devirtualizer.do_cld false (class_of b c) cld w
  /\ Devirtualizer.do_metadata true (class_of b c) w
     = Devirtualizer.do_metadata false (class_of b c) w
  /\ Devirtualizer.do_oop false (class_of b c) p w
     = (if virtual_do_oop_guarded b c
        then Fatal check_assert "Only the _nv versions should be used"
        else Devirtualizer.do_oop true (class_of b c) p w).
Proof.
  intros Hoop. destruct c as [this oop_nv oop|bodies this oop_nv oop|this];
    simpl in *.
  - repeat split. apply Hoop.
  - repeat split. apply Hoop.
  - repeat split. rewrite NoHeaderExtendedOopClosure_do_oop.
    destruct b; simpl; [|done].
    unfold mbind, M_bind, assert, vm_check. simpl.
    by destruct (NoHeaderExtendedOopClosure.do_oop_nv this p w) as [[[] ?]|].
Qed.

(** C1, witness: a metadata-aware closure that clears slots, in a debug
    build, on a heap of two slots. *)
Lemma Devirtualizer_paths_agree_witness :
  own_do_oop_together metadata_clearing_closure
  /\ (Devirtualizer.do_klass true (class_of debug metadata_clearing_closure)
        4096 Sample.small_heap
      = Devirtualizer.do_klass false (class_of debug metadata_clearing_closure)
          4096 Sample.small_heap
      /\ Devirtualizer.do_cld true (class_of debug metadata_clearing_closure)
           4096 Sample.small_heap
         = Devirtualizer.do_cld false
             (class_of debug metadata_clearing_closure) 4096
             Sample.small_heap
      /\ Devirtualizer.do_metadata true
           (class_of debug metadata_clearing_closure) Sample.small_heap
         = Devirtualizer.do_metadata false
             (class_of debug metadata_clearing_closure) Sample.small_heap
      /\ Devirtualizer.do_oop false (class_of debug metadata_clearing_closure)
           (narrowOop_slot 8192) Sample.small_heap
         = (if virtual_do_oop_guarded debug metadata_clearing_closure
            then Fatal check_assert "Only the _nv versions should be used"
            else Devirtualizer.do_oop true
                   (class_of debug metadata_clearing_closure)
                   (narrowOop_slot 8192) Sample.small_heap)).
Proof.
  assert (H : own_do_oop_together metadata_clearing_closure)
    by (intros p w; reflexivity).
  split; [exact H|].
  exact (Devirtualizer_paths_agree Heap debug metadata_clearing_closure
           (narrowOop_slot 8192) 4096 4096 Sample.small_heap H).
Defined.

(** On [NoHeaderExtendedOopClosure] in a debug build the metadata
    operations still agree on the two paths, and the reference visit is
    fatal on the dynamic one. *)
Example Devirtualizer_no_header_debug :
  Devirtualizer.do_klass true (Sample.no_header_nothing debug) 4096
    Sample.small_heap
  = Devirtualizer.do_klass false (Sample.no_header_nothing debug) 4096
      Sample.small_heap
  /\ Devirtualizer.do_metadata true (Sample.no_header_nothing debug)
       Sample.small_heap
     = Done (false, Sample.small_heap)
  /\ Devirtualizer.do_metadata false (Sample.no_header_nothing debug)
       Sample.small_heap
     = Done (false, Sample.small_heap).
Proof. repeat split. Qed.

(** ** The marking code blob closure *)
Section Marking.
Import MarkingCodeBlobClosure.

(** One call: the marker is set whatever it was, and the inner visitor runs
    if it was clear. *)
Lemma do_code_blob_marks {W} (inner : address -> M W unit) (cb : Z)
    (m : gset Z) (w : W) :
  do_code_blob inner cb (Pass m w)
  = if bool_decide (cb ∈ m)
    then Done (tt, Pass ({[cb]} ∪ m) w)
    else match inner cb w with
         | Done (_, w') => Done (tt, Pass ({[cb]} ∪ m) w')
         | Fatal c msg => Fatal c msg
         end.
Proof.
  unfold do_code_blob, test_set_mark, mbind, M_bind, inner_visit. simpl.
  case_bool_decide; [done|]. simpl.
  by destruct (inner cb w) as [[[] w']|].
Qed.

Lemma traverse_cons {W} (inner : address -> M W unit) (cb : Z)
    (rest : list Z) (s : pass W) :
  traverse inner (cb :: rest) s
  = match do_code_blob inner cb s with
    | Done (_, s') => traverse inner rest s'
    | Fatal c msg => Fatal c msg
    end.
Proof. reflexivity. Qed.

Lemma apply_all_cons {W} (inner : address -> M W unit) (cb : Z)
    (rest : list Z) (w : W) :
  apply_all inner (cb :: rest) w
  = match inner cb w with
    | Done (_, w') => apply_all inner rest w'
    | Fatal c msg => Fatal c msg
    end.
Proof. reflexivity. Qed.

Lemma first_reached_elem (roots : list Z) : forall (m : gset Z) (x : Z),
  x ∈ first_reached m roots <-> x ∈ roots /\ x ∉ m.
Proof.
  induction roots as [|cb rest IH]; intros m x; simpl.
  - set_solver.
  - case_bool_decide as Hcb.
    + rewrite IH. set_solver.
    + rewrite elem_of_cons, IH.
      destruct (decide (x = cb)) as [->|Hne]; set_solver.
Qed.

Lemma first_reached_NoDup (roots : list Z) : forall m : gset Z,
  NoDup (first_reached m roots).
Proof.
  induction roots as [|cb rest IH]; intros m; simpl.
  - constructor.
  - case_bool_decide as Hcb; [apply IH|].
    constructor; [|apply IH].
    rewrite first_reached_elem. set_solver.
Qed.

(** Whatever the inner visitor, a pass applies it to the code blobs reached
    for the first time, once each and in that order, and marks every blob
    reached. *)
Lemma traverse_first_reached {W} (inner : address -> M W unit)
    (roots : list Z) : forall (m : gset Z) (w : W),
  traverse inner roots (Pass m w)
  = match apply_all inner (first_reached m roots) w with
    | Done (_, w') => Done (tt, Pass (list_to_set roots ∪ m) w')
    | Fatal c msg => Fatal c msg
    end.
Proof.
  induction roots as [|cb rest IH]; intros m w.
  - simpl. unfold mret, M_ret. do 3 f_equal. set_solver.
  - rewrite traverse_cons, do_code_blob_marks. simpl first_reached.
    case_bool_decide as Hcb.
    + rewrite IH. destruct (apply_all _ _ w) as [[[] w']|]; [|done].
      do 3 f_equal. set_solver.
    + rewrite apply_all_cons.
      destruct (inner cb w) as [[[] w1]|]; [|done].
      rewrite IH. destruct (apply_all _ _ w1) as [[[] w']|]; [|done].
      do 3 f_equal. set_solver.
Qed.

Lemma apply_all_recording_visitor (l : list Z) : forall log,
  apply_all recording_visitor l log = Done (tt, log ++ l).
Proof.
  induction l as [|cb rest IH]; intros log; simpl.
  - unfold mret, M_ret. by rewrite app_nil_r.
  - unfold mbind, M_bind, recording_visitor. rewrite IH.
    by rewrite <- app_assoc.
Qed.

Lemma visits_not_elem (cb : Z) (l : list Z) : cb ∉ l -> visits cb l = 0%nat.
Proof.
  unfold visits. induction l as [|x l IH]; intros Hin; [done|].
  apply not_elem_of_cons in Hin as [Hne Hin].
  rewrite filter_cons_False by congruence. by apply IH.
Qed.

Lemma visits_NoDup (cb : Z) (l : list Z) :
  NoDup l -> cb ∈ l -> visits cb l = 1%nat.
Proof.
  induction 1 as [|x l Hx Hl IH]; intros Hin.
  - by apply elem_of_nil in Hin.
  - destruct (decide (x = cb)) as [->|Hne].
    + pose proof (visits_not_elem cb l Hx) as H0. unfold visits in *.
      rewrite filter_cons_True by done. simpl. by rewrite H0.
    + apply elem_of_cons in Hin as [Heq|Hin]; [congruence|].
      specialize (IH Hin). unfold visits in *.
      by rewrite filter_cons_False by done.
Qed.

Lemma visits_pos_elem (cb : Z) (l : list Z) :
  (0 < visits cb l)%nat -> cb ∈ l.
Proof.
  unfold visits. intros Hpos.
  destruct (filter (fun x => x = cb) l) as [|y ys] eqn:Hf;
    [simpl in Hpos; lia|].
  assert (Hy : y ∈ filter (fun x => x = cb) l)
    by (rewrite Hf; apply elem_of_cons; by left).
  by apply list_elem_of_filter in Hy as [-> Hy].
Qed.

(** One pass with the recording visitor, from a state whose markers have
    just been reset. *)
Lemma traverse_recording_visitor (roots : list Z) (cb : Z)
    (s : pass (list Z)) :
  (0 < visits cb roots)%nat ->
  exists s' new,
    traverse recording_visitor roots (reset_marks s) = Done (tt, s')
    /\ world s' = world s ++ new
    /\ visits cb new = 1%nat.
Proof.
  intros Hin%visits_pos_elem. unfold reset_marks.
  rewrite traverse_first_reached, apply_all_recording_visitor.
  eexists _, _. split; [reflexivity|]. split; [reflexivity|].
  apply visits_NoDup; [apply first_reached_NoDup|].
  apply first_reached_elem. split; [done|]. apply not_elem_of_empty.
Qed.

(** Without the reset, a blob marked in the pass before is not visited. *)
Lemma traverse_marked_not_visited (roots : list Z) (cb : Z)
    (s : pass (list Z)) :
  cb ∈ marked s ->
  exists s' new,
    traverse recording_visitor roots s = Done (tt, s')
    /\ world s' = world s ++ new
    /\ visits cb new = 0%nat.
Proof.
  intros Hm. destruct s as [m log]. simpl in *.
  rewrite traverse_first_reached, apply_all_recording_visitor.
  eexists _, _. split; [reflexivity|]. split; [reflexivity|].
  apply visits_not_elem. rewrite first_reached_elem. tauto.
Qed.

(** C3: a driver that reaches the code blob [cb] from N >= 1 of its roots
    (among roots to other blobs) in one pass, starting with the markers
    reset, has the inner visitor applied to [cb] exactly once in that pass;
    after the markers are reset at the pass boundary, a next pass that
    reaches [cb] from one or more roots applies it to [cb] exactly once
    again. *)
Theorem MarkingCodeBlobClosure_once_per_pass
    (roots1 roots2 : list Z) (cb : Z) (s0 : pass (list Z)) :
  (0 < visits cb roots1)%nat ->
  (0 < visits cb roots2)%nat ->
  exists s1 s2 new1 new2,
    traverse recording_visitor roots1 (reset_marks s0) = Done (tt, s1)
    /\ world s1 = world s0 ++ new1
    /\ visits cb new1 = 1%nat
    /\ traverse recording_visitor roots2 (reset_marks s1) = Done (tt, s2)
    /\ world s2 = world s1 ++ new2
    /\ visits cb new2 = 1%nat.
Proof.
  intros H1 H2.
  destruct (traverse_recording_visitor roots1 cb s0 H1)
    as (s1 & new1 & Ht1 & Hw1 & Hv1).
  destruct (traverse_recording_visitor roots2 cb s1 H2)
    as (s2 & new2 & Ht2 & Hw2 & Hv2).
  by exists s1, s2, new1, new2.
Qed.

End Marking.

(** C3, witness: the blob at 100 reached from three of four roots in the
    first pass and from two of three in the next. *)
Lemma MarkingCodeBlobClosure_once_per_pass_witness :
  (0 < MarkingCodeBlobClosure.visits 100%Z [100; 200; 100; 100]%Z)%nat
  /\ (0 < MarkingCodeBlobClosure.visits 100%Z [200; 100; 100]%Z)%nat
  /\ exists s1 s2 new1 new2,
       MarkingCodeBlobClosure.traverse
         MarkingCodeBlobClosure.recording_visitor [100; 200; 100; 100]
         (MarkingCodeBlobClosure.reset_marks
            (MarkingCodeBlobClosure.Pass ∅ []))
       = Done (tt, s1)
       /\ MarkingCodeBlobClosure.world s1 = [] ++ new1
       /\ MarkingCodeBlobClosure.visits 100 new1 = 1%nat
       /\ MarkingCodeBlobClosure.traverse
            MarkingCodeBlobClosure.recording_visitor [200; 100; 100]
            (MarkingCodeBlobClosure.reset_marks s1)
          = Done (tt, s2)
       /\ MarkingCodeBlobClosure.world s2
          = MarkingCodeBlobClosure.world s1 ++ new2
       /\ MarkingCodeBlobClosure.visits 100 new2 = 1%nat.
Proof.
  assert (H1 : (0 < MarkingCodeBlobClosure.visits 100%Z [100; 200; 100; 100]%Z)%nat)
    by (vm_compute; lia).
  assert (H2 : (0 < MarkingCodeBlobClosure.visits 100%Z [200; 100; 100]%Z)%nat)
    by (vm_compute; lia).
  split; [exact H1|]. split; [exact H2|].
  exact (MarkingCodeBlobClosure_once_per_pass
           [100; 200; 100; 100] [200; 100; 100] 100
           (MarkingCodeBlobClosure.Pass ∅ []) H1 H2).
Defined.

(** The same two passes, run: the log of the recording visitor. *)
Example MarkingCodeBlobClosure_two_passes :
  MarkingCodeBlobClosure.traverse
    MarkingCodeBlobClosure.recording_visitor [100; 200; 100; 100]
    (MarkingCodeBlobClosure.Pass ∅ [])
  = Done (tt, MarkingCodeBlobClosure.Pass {[100; 200]} [100; 200])
  /\ MarkingCodeBlobClosure.traverse
       MarkingCodeBlobClosure.recording_visitor [200; 100; 100]
       (MarkingCodeBlobClosure.reset_marks
          (MarkingCodeBlobClosure.Pass {[100; 200]} [100; 200]))
     = Done (tt, MarkingCodeBlobClosure.Pass {[100; 200]}
                   [100; 200; 200; 100]).
Proof. split; vm_compute; reflexivity. Qed.

(** ** More on the tagged-symbol accessors *)
Section SymbolWords.
Import SymbolClosure.
Variable w : Z.
Hypothesis Hw : 0 < w.

Lemma loaded_word v :
  is_pointer w v ->
  to_Symbol_ptr w (Z.land (intptr_t w v) (Z.lnot 1)) = v - Z.b2z (side_flag v).
Proof.
  intros Hv. unfold side_flag. rewrite Z.bit0_mod.
  replace (v - v mod 2) with (2 * (v / 2)) by (pose proof (Z.div_mod v 2); lia).
  apply Z.bits_inj'. intros i Hi. rewrite testbit_loaded by done.
  destruct (Z.eqb_spec i 0) as [->|Hne].
  - rewrite Z.testbit_even_0. by rewrite andb_false_r.
  - assert (Hi' : i = Z.succ (i - 1)) by lia.
    rewrite Hi' at 3. rewrite Z.testbit_even_succ, Z.div2_bits by lia.
    rewrite <- Hi'. simpl. rewrite andb_true_r.
    destruct (Z.ltb_spec i w); [done|]. simpl. symmetry.
    by apply (testbit_pointer_high w).
Qed.

Lemma stored_word sym old :
  is_pointer w sym -> is_pointer w old ->
  to_Symbol_ptr w (Z.lor (intptr_t w sym) (Z.land (intptr_t w old) 1))
  = Z.lor sym (Z.land old 1).
Proof.
  intros Hsym Hold. apply Z.bits_inj'. intros i Hi.
  rewrite testbit_stored by done.
  rewrite Z.lor_spec, Z.land_spec, testbit_one by done.
  destruct (Z.ltb_spec i w); [done|]. simpl.
  rewrite (testbit_pointer_high w Hw sym i), (testbit_pointer_high w Hw old i) by done.
  done.
Qed.

(** The word found in a slot after [store_symbol], and the word
    [load_symbol] returns. *)
Lemma store_symbol_word mem p old sym :
  mem !! p = Some old -> is_pointer w old -> is_pointer w sym ->
  store_symbol w mem p sym = Some (<[p := Z.lor sym (Z.land old 1)]> mem).
Proof.
  intros Hp Hold Hsym. unfold store_symbol. rewrite Hp.
  by rewrite stored_word.
Qed.

Lemma load_symbol_word mem p v :
  mem !! p = Some v -> is_pointer w v ->
  load_symbol w mem p = Some (v - Z.b2z (side_flag v)).
Proof.
  intros Hp Hv. unfold load_symbol. rewrite Hp. by rewrite loaded_word.
Qed.

(** Loading what was stored loses the flag of the slot and of the value. *)
Lemma loaded_stored sym old :
  to_Symbol_ptr w
    (Z.land
       (intptr_t w
          (to_Symbol_ptr w
             (Z.lor (intptr_t w sym) (Z.land (intptr_t w old) 1))))
       (Z.lnot 1))
  = to_Symbol_ptr w (Z.land (intptr_t w sym) (Z.lnot 1)).
Proof.
  apply Z.bits_inj'. intros i Hi.
  rewrite !testbit_loaded, testbit_stored by done.
  destruct (i <? w); [simpl|done].
  destruct (Z.eqb_spec i 0); simpl.
  - by rewrite !andb_false_r.
  - by rewrite andb_false_r, orb_false_r.
Qed.

Lemma side_flag_lor sym old :
  side_flag (Z.lor sym (Z.land old 1)) = side_flag sym || side_flag old.
Proof.
  unfold side_flag. rewrite Z.lor_spec, Z.land_spec.
  change (Z.testbit 1 0) with true. by rewrite andb_true_r.
Qed.

Lemma flag_of_untagged_lor sym old :
  side_flag sym = false ->
  Z.land (Z.lor sym (Z.land old 1)) 1 = Z.land old 1.
Proof.
  unfold side_flag. intros Hs. apply Z.bits_inj'. intros i Hi.
  rewrite !Z.land_spec, Z.lor_spec, Z.land_spec, testbit_one by done.
  destruct (Z.eqb_spec i 0) as [->|]; [|by rewrite !andb_false_r].
  rewrite Hs. simpl. by rewrite !andb_true_r.
Qed.

Lemma lor_flag_is_pointer sym old :
  is_pointer w sym -> is_pointer w old ->
  is_pointer w (Z.lor sym (Z.land old 1)).
Proof.
  intros Hsym Hold. rewrite <- stored_word by done.
  by apply to_Symbol_ptr_is_pointer.
Qed.

(** X1: [load_symbol] on a slot holding the pointer [v] returns [v] less its
    side flag: the result has its least-significant bit clear, is a pointer
    again, and differs from [v] by the flag only, also for pointers in the
    upper half of the address range, where [intptr_t] is negative. *)
Theorem load_symbol_untagged (mem : gmap Z Z) (p v : Z) :
  mem !! p = Some v ->
  is_pointer w v ->
  exists r,
    load_symbol w mem p = Some r
    /\ r = v - Z.b2z (side_flag v)
    /\ side_flag r = false
    /\ is_pointer w r.
Proof.
  intros Hp Hv. exists (v - Z.b2z (side_flag v)).
  split; [by apply load_symbol_word|]. split; [done|].
  rewrite <- loaded_word by done. split.
  - unfold side_flag. rewrite testbit_loaded by done. simpl.
    by rewrite andb_false_r.
  - by apply to_Symbol_ptr_is_pointer.
Qed.

(** X2: for any reference value, tagged or not, [store_symbol] leaves the
    word [sym | (old & 1)] in the slot (the casts through [intptr_t] lose
    nothing), the side flag of the slot becomes its old flag or-ed with the
    low bit of the value, and [load_symbol] then returns the value with its
    low bit cleared. *)
Theorem load_symbol_store_symbol_any (mem : gmap Z Z) (p old sym : Z) :
  mem !! p = Some old ->
  is_pointer w old ->
  is_pointer w sym ->
  exists mem' new,
    store_symbol w mem p sym = Some mem'
    /\ mem' !! p = Some new
    /\ new = Z.lor sym (Z.land old 1)
    /\ side_flag new = side_flag sym || side_flag old
    /\ load_symbol w mem' p = Some (sym - Z.b2z (side_flag sym)).
Proof.
  intros Hp Hold Hsym.
  exists (<[p := Z.lor sym (Z.land old 1)]> mem), (Z.lor sym (Z.land old 1)).
  split; [by apply store_symbol_word|].
  rewrite lookup_insert_eq. repeat split; [apply side_flag_lor|].
  unfold load_symbol. rewrite lookup_insert_eq.
  rewrite <- stored_word, loaded_stored, loaded_word by done. done.
Qed.

(** X3: storing back what [load_symbol] returned leaves the memory as it
    was. *)
Theorem store_symbol_load_symbol (mem : gmap Z Z) (p v : Z) :
  mem !! p = Some v ->
  is_pointer w v ->
  exists r, load_symbol w mem p = Some r /\ store_symbol w mem p r = Some mem.
Proof.
  intros Hp Hv. unfold load_symbol, store_symbol. rewrite Hp.
  eexists. split; [reflexivity|]. f_equal.
  apply insert_id. rewrite Hp. f_equal.
  apply Z.bits_inj'. intros i Hi. rewrite testbit_stored by done.
  destruct (Z.ltb_spec i w); simpl.
  - rewrite testbit_loaded by done.
    destruct (Z.ltb_spec i w); [|lia]. simpl.
    destruct (Z.eqb_spec i 0); simpl.
    + by rewrite andb_false_r, andb_true_r.
    + by rewrite andb_true_r, andb_false_r, orb_false_r.
  - by apply (testbit_pointer_high w).
Qed.

Lemma store_symbol_after_untagged (mem : gmap Z Z) (p old a b : Z) :
  mem !! p = Some old ->
  is_pointer w old ->
  is_pointer w a ->
  is_pointer w b ->
  side_flag a = false ->
  exists mem1,
    store_symbol w mem p a = Some mem1
    /\ store_symbol w mem1 p b = store_symbol w mem p b.
Proof.
  intros Hp Hold Ha Hb Hflag.
  exists (<[p := Z.lor a (Z.land old 1)]> mem).
  split; [by apply store_symbol_word|].
  rewrite (store_symbol_word _ p (Z.lor a (Z.land old 1)) b);
    [|apply lookup_insert_eq|by apply lor_flag_is_pointer|done].
  rewrite (store_symbol_word mem p old b) by done.
  by rewrite insert_insert_eq, flag_of_untagged_lor.
Qed.

(** X4: a store of an untagged value is forgotten by the next store to the
    same slot: the two stores leave what the second alone leaves. *)
Theorem store_symbol_twice (mem : gmap Z Z) (p old a b : Z) :
  mem !! p = Some old ->
  is_pointer w old ->
  is_pointer w a ->
  is_pointer w b ->
  side_flag a = false ->
  exists mem1,
    store_symbol w mem p a = Some mem1
    /\ store_symbol w mem1 p b = store_symbol w mem p b.
Proof. apply store_symbol_after_untagged. Qed.

(** X5: [store_symbol] keeps a memory of pointers a memory of pointers,
    whatever value is stored, and neither adds nor removes a slot. *)
Theorem store_symbol_keeps_pointers (mem mem' : gmap Z Z) (p sym : Z) :
  map_Forall (fun _ v => is_pointer w v) mem ->
  store_symbol w mem p sym = Some mem' ->
  map_Forall (fun _ v => is_pointer w v) mem' /\ dom mem' = dom mem.
Proof.
  intros Hall Hst. unfold store_symbol in Hst.
  destruct (mem !! p) as [old|] eqn:Hp; [|done].
  injection Hst as <-. split.
  - apply map_Forall_insert_2; [|done]. by apply to_Symbol_ptr_is_pointer.
  - rewrite dom_insert_L. apply elem_of_dom_2 in Hp. set_solver.
Qed.

(** X6: stores to two different slots commute, failures included. *)
Theorem store_symbol_commute (mem : gmap Z Z) (p q a b : Z) :
  p <> q ->
  (store_symbol w mem p a ≫= fun m => store_symbol w m q b)
  = (store_symbol w mem q b ≫= fun m => store_symbol w m p a).
Proof.
  intros Hne. unfold store_symbol.
  destruct (mem !! p) as [vp|] eqn:Hp; destruct (mem !! q) as [vq|] eqn:Hq;
    simpl; rewrite ?lookup_insert_ne, ?Hp, ?Hq by done; try done.
  by rewrite insert_insert_ne.
Qed.

(** X7: a run of stores of untagged values to one slot followed by the
    store of [last] leaves what the store of [last] alone leaves: the side
    flag of the slot survives the whole run. *)
Theorem store_symbols_last_wins (syms : list Z) :
  forall (mem : gmap Z Z) (p old last : Z),
  mem !! p = Some old ->
  is_pointer w old ->
  is_pointer w last ->
  Forall (fun s => is_pointer w s /\ side_flag s = false) syms ->
  store_symbols w mem p (syms ++ [last]) = store_symbol w mem p last.
Proof.
  induction syms as [|s syms IH]; intros mem p old last Hp Hold Hlast Hall.
  - simpl. by destruct (store_symbol w mem p last).
  - apply Forall_cons in Hall as [[Hs Hflag] Hall]. simpl.
    destruct (store_symbol_after_untagged mem p old s last Hp Hold Hs Hlast Hflag)
      as (mem1 & Hst & Htwice).
    rewrite Hst, <- Htwice.
    rewrite (store_symbol_word mem p old s) in Hst by done.
    injection Hst as <-.
    apply (IH _ p (Z.lor s (Z.land old 1)));
      [apply lookup_insert_eq|by apply lor_flag_is_pointer|done|done].
Qed.
End SymbolWords.

(** X1, witness: a slot holding the all-ones pointer of a 64-bit word. *)
Lemma load_symbol_untagged_witness :
  0 < 64
  /\ ({[ 4096 := 18446744073709551615 ]} : gmap Z Z) !! 4096
     = Some 18446744073709551615
  /\ SymbolClosure.is_pointer 64 18446744073709551615
  /\ exists r,
       SymbolClosure.load_symbol 64 {[ 4096 := 18446744073709551615 ]} 4096
       = Some r
       /\ r = 18446744073709551615
              - Z.b2z (SymbolClosure.side_flag 18446744073709551615)
       /\ SymbolClosure.side_flag r = false
       /\ SymbolClosure.is_pointer 64 r.
Proof.
  assert (H64 : 0 < 64) by lia.
  assert (Hv : SymbolClosure.is_pointer 64 18446744073709551615)
    by (unfold SymbolClosure.is_pointer; lia).
  split; [exact H64|]. split; [reflexivity|]. split; [exact Hv|].
  exact (load_symbol_untagged 64 H64 {[ 4096 := 18446744073709551615 ]}
           4096 18446744073709551615 eq_refl Hv).
Defined.

(** X2, witness: the tagged value 12289 stored into a slot holding 8192. *)
Lemma load_symbol_store_symbol_any_witness :
  0 < 64
  /\ ({[ 4096 := 8192 ]} : gmap Z Z) !! 4096 = Some 8192
  /\ SymbolClosure.is_pointer 64 8192
  /\ SymbolClosure.is_pointer 64 12289
  /\ exists mem' new,
       SymbolClosure.store_symbol 64 {[ 4096 := 8192 ]} 4096 12289 = Some mem'
       /\ mem' !! 4096 = Some new
       /\ new = Z.lor 12289 (Z.land 8192 1)
       /\ SymbolClosure.side_flag new
          = SymbolClosure.side_flag 12289 || SymbolClosure.side_flag 8192
       /\ SymbolClosure.load_symbol 64 mem' 4096
          = Some (12289 - Z.b2z (SymbolClosure.side_flag 12289)).
Proof.
  assert (H64 : 0 < 64) by lia.
  assert (Hold : SymbolClosure.is_pointer 64 8192)
    by (unfold SymbolClosure.is_pointer; lia).
  assert (Hsym : SymbolClosure.is_pointer 64 12289)
    by (unfold SymbolClosure.is_pointer; lia).
  split; [exact H64|]. split; [reflexivity|].
  split; [exact Hold|]. split; [exact Hsym|].
  exact (load_symbol_store_symbol_any 64 H64 {[ 4096 := 8192 ]} 4096 8192
           12289 eq_refl Hold Hsym).
Defined.

(** X3, witness: a slot holding the tagged pointer 8193. *)
Lemma store_symbol_load_symbol_witness :
  0 < 64
  /\ ({[ 4096 := 8193 ]} : gmap Z Z) !! 4096 = Some 8193
  /\ SymbolClosure.is_pointer 64 8193
  /\ exists r,
       SymbolClosure.load_symbol 64 {[ 4096 := 8193 ]} 4096 = Some r
       /\ SymbolClosure.store_symbol 64 {[ 4096 := 8193 ]} 4096 r
          = Some {[ 4096 := 8193 ]}.
Proof.
  assert (H64 : 0 < 64) by lia.
  assert (Hv : SymbolClosure.is_pointer 64 8193)
    by (unfold SymbolClosure.is_pointer; lia).
  split; [exact H64|]. split; [reflexivity|]. split; [exact Hv|].
  exact (store_symbol_load_symbol 64 H64 {[ 4096 := 8193 ]} 4096 8193
           eq_refl Hv).
Defined.

(** X4, witness: 12288 then 16385 stored into a slot holding 8193. *)
Lemma store_symbol_twice_witness :
  0 < 64
  /\ ({[ 4096 := 8193 ]} : gmap Z Z) !! 4096 = Some 8193
  /\ SymbolClosure.is_pointer 64 8193
  /\ SymbolClosure.is_pointer 64 12288
  /\ SymbolClosure.is_pointer 64 16385
  /\ SymbolClosure.side_flag 12288 = false
  /\ exists mem1,
       SymbolClosure.store_symbol 64 {[ 4096 := 8193 ]} 4096 12288 = Some mem1
       /\ SymbolClosure.store_symbol 64 mem1 4096 16385
          = SymbolClosure.store_symbol 64 {[ 4096 := 8193 ]} 4096 16385.
Proof.
  assert (H64 : 0 < 64) by lia.
  assert (Hold : SymbolClosure.is_pointer 64 8193)
    by (unfold SymbolClosure.is_pointer; lia).
  assert (Ha : SymbolClosure.is_pointer 64 12288)
    by (unfold SymbolClosure.is_pointer; lia).
  assert (Hb : SymbolClosure.is_pointer 64 16385)
    by (unfold SymbolClosure.is_pointer; lia).
  split; [exact H64|]. split; [reflexivity|]. split; [exact Hold|].
  split; [exact Ha|]. split; [exact Hb|]. split; [reflexivity|].
  exact (store_symbol_twice 64 H64 {[ 4096 := 8193 ]} 4096 8193 12288 16385
           eq_refl Hold Ha Hb eq_refl).
Defined.

(** X5, witness: a store into the first of two slots. *)
Lemma store_symbol_keeps_pointers_witness :
  0 < 64
  /\ map_Forall (fun _ v => SymbolClosure.is_pointer 64 v)
       (<[ 4096 := 8193 ]> {[ 4104 := 0 ]} : gmap Z Z)
  /\ SymbolClosure.store_symbol 64 (<[ 4096 := 8193 ]> {[ 4104 := 0 ]})
       4096 12288
     = Some (<[ 4096 := 12289 ]> {[ 4104 := 0 ]})
  /\ map_Forall (fun _ v => SymbolClosure.is_pointer 64 v)
       (<[ 4096 := 12289 ]> {[ 4104 := 0 ]} : gmap Z Z)
  /\ dom (<[ 4096 := 12289 ]> {[ 4104 := 0 ]} : gmap Z Z)
     = dom (<[ 4096 := 8193 ]> {[ 4104 := 0 ]} : gmap Z Z).
Proof.
  assert (H64 : 0 < 64) by lia.
  assert (Hall : map_Forall (fun _ v => SymbolClosure.is_pointer 64 v)
                   (<[ 4096 := 8193 ]> {[ 4104 := 0 ]} : gmap Z Z)).
  { apply map_Forall_insert_2; [unfold SymbolClosure.is_pointer; lia|].
    apply map_Forall_singleton. unfold SymbolClosure.is_pointer. lia. }
  assert (Hst : SymbolClosure.store_symbol 64
                  (<[ 4096 := 8193 ]> {[ 4104 := 0 ]}) 4096 12288
                = Some (<[ 4096 := 12289 ]> {[ 4104 := 0 ]}))
    by (vm_compute; reflexivity).
  split; [exact H64|]. split; [exact Hall|]. split; [exact Hst|].
  exact (store_symbol_keeps_pointers 64 H64 _ _ 4096 12288 Hall Hst).
Defined.

(** X6, witness: two slots of one memory. *)
Lemma store_symbol_commute_witness :
  4096 <> 4104
  /\ (SymbolClosure.store_symbol 64 (<[ 4096 := 8193 ]> {[ 4104 := 0 ]})
        4096 12288
      ≫= fun m => SymbolClosure.store_symbol 64 m 4104 16384)
     = (SymbolClosure.store_symbol 64 (<[ 4096 := 8193 ]> {[ 4104 := 0 ]})
          4104 16384
        ≫= fun m => SymbolClosure.store_symbol 64 m 4096 12288).
Proof.
  assert (Hne : 4096 <> 4104) by lia.
  split; [exact Hne|].
  exact (store_symbol_commute 64 (<[ 4096 := 8193 ]> {[ 4104 := 0 ]})
           4096 4104 12288 16384 Hne).
Defined.

(** X7, witness: 12288, 16384 and then 20481 stored into a slot holding
    8193. *)
Lemma store_symbols_last_wins_witness :
  0 < 64
  /\ ({[ 4096 := 8193 ]} : gmap Z Z) !! 4096 = Some 8193
  /\ SymbolClosure.is_pointer 64 8193
  /\ SymbolClosure.is_pointer 64 20481
  /\ Forall (fun s => SymbolClosure.is_pointer 64 s
                      /\ SymbolClosure.side_flag s = false) [12288; 16384]
  /\ store_symbols 64 {[ 4096 := 8193 ]} 4096 ([12288; 16384] ++ [20481])
     = SymbolClosure.store_symbol 64 {[ 4096 := 8193 ]} 4096 20481.
Proof.
  assert (H64 : 0 < 64) by lia.
  assert (Hold : SymbolClosure.is_pointer 64 8193)
    by (unfold SymbolClosure.is_pointer; lia).
  assert (Hlast : SymbolClosure.is_pointer 64 20481)
    by (unfold SymbolClosure.is_pointer; lia).
  assert (Hall : Forall (fun s => SymbolClosure.is_pointer 64 s
                                  /\ SymbolClosure.side_flag s = false)
                   [12288; 16384]).
  { repeat (apply Forall_cons; split;
            [split; [unfold SymbolClosure.is_pointer; lia|reflexivity]|]).
    apply Forall_nil_2. }
  split; [exact H64|]. split; [reflexivity|]. split; [exact Hold|].
  split; [exact Hlast|]. split; [exact Hall|].
  exact (store_symbols_last_wins 64 H64 [12288; 16384] {[ 4096 := 8193 ]}
           4096 8193 20481 eq_refl Hold Hlast Hall).
Defined.

(** ** More on the wrapper and on the metadata protocol *)

(** X8: a [NoHeaderExtendedOopClosure] wrapped in another one is reached
    through its virtual [do_oop], since the forwarding call is virtual: the
    [_nv] member of the outer wrapper is then fatal where asserts are
    checked, and is the wrapped closure's [do_oop] elsewhere. *)
Theorem NoHeaderExtendedOopClosure_nested
    (W : Type) (b : build) (cl : OopClosure.t W) (p : slot) (w : W) :
  let inner :=
    NoHeaderExtendedOopClosure.class b (NoHeaderExtendedOopClosure.new cl) in
  let outer :=
    NoHeaderExtendedOopClosure.new (OopClosureType.as_OopClosure inner) in
  NoHeaderExtendedOopClosure.do_oop_nv outer p w
  = (if check_enabled check_assert b
     then Fatal check_assert "Only the _nv versions should be used"
     else OopClosure.do_oop cl p w).
Proof.
  intros inner outer. rewrite NoHeaderExtendedOopClosure_do_oop_nv. simpl.
  rewrite NoHeaderExtendedOopClosure_do_oop.
  destruct b; simpl; [|done].
  unfold mbind, M_bind, assert, vm_check. simpl. by destruct p.
Qed.

(** X11: a closure that inherits the metadata members of
    [ExtendedOopClosure] answers [false] to [do_metadata] on either dispatch
    path, so an invocation that honours the answer completes without effect
    in every build: the [ShouldNotReachHere()] of the inherited [do_klass]
    and [do_cld] is not reached. *)
Theorem visit_metadata_ExtendedOopClosure
    (W : Type) (b : build) (use_non_virtual_call : bool)
    (this : ExtendedOopClosure.t) (oop_nv oop : slot -> M W unit)
    (md : metadata) (w : W) :
  visit_metadata use_non_virtual_call
    (ExtendedOopClosure.subclass b this oop_nv oop) md w
  = Done (tt, w).
Proof. by destruct use_non_virtual_call. Qed.

(** A closure that inherits the metadata members of
    [MetadataAwareOopClosure] answers [true], and the invocation runs the
    class's [do_klass_nv] on a klass and its [do_cld_nv] on a class loader
    data, the same on either dispatch path. *)
Lemma visit_metadata_MetadataAwareOopClosure
    (W : Type) (I : MetadataAwareOopClosure.inline_bodies W)
    (use_non_virtual_call : bool) (this : MetadataAwareOopClosure.t)
    (oop_nv oop : slot -> M W unit) (k cld : address) (w : W) :
  let cl := MetadataAwareOopClosure.subclass I this oop_nv oop in
  visit_metadata use_non_virtual_call cl (header_klass k) w
    = MetadataAwareOopClosure.do_klass_nv I this k w
  /\ visit_metadata use_non_virtual_call cl (mirror_klass k) w
     = MetadataAwareOopClosure.do_klass_nv I this k w
  /\ visit_metadata use_non_virtual_call cl (loader_cld cld) w
     = MetadataAwareOopClosure.do_cld_nv I this cld w.
Proof. by destruct use_non_virtual_call. Qed.

(** ** More on the marking code blob closure *)
Section MarkingMore.
Import MarkingCodeBlobClosure.

(** X9: whatever the inner visitor and whatever is marked at the start, a
    traversal applies the inner visitor to the blobs it reaches for the
    first time, in the order it reaches them and stopping at the first fatal
    visit; no blob occurs twice among them, they are the roots that were not
    marked, and every root is marked at the end. *)
Theorem traverse_any_visitor
    (W : Type) (inner : address -> M W unit) (roots : list Z)
    (m : gset Z) (w : W) :
  traverse inner roots (Pass m w)
  = match apply_all inner (first_reached m roots) w with
    | Done (_, w') => Done (tt, Pass (list_to_set roots ∪ m) w')
    | Fatal c msg => Fatal c msg
    end
  /\ NoDup (first_reached m roots)
  /\ (forall cb, cb ∈ first_reached m roots <-> cb ∈ roots /\ cb ∉ m).
Proof.
  split; [apply traverse_first_reached|].
  split; [apply first_reached_NoDup|]. intros cb. apply first_reached_elem.
Qed.

(** X10: a traversal all of whose roots are marked already applies the
    inner visitor to nothing and leaves the state of the pass as it is. *)
Theorem traverse_marked
    (W : Type) (inner : address -> M W unit) (roots : list Z) (s : pass W) :
  Forall (fun cb => cb ∈ marked s) roots ->
  traverse inner roots s = Done (tt, s).
Proof.
  destruct s as [m w]. simpl. induction 1 as [|cb rest Hcb Hrest IH]; [done|].
  rewrite traverse_cons, do_code_blob_marks.
  rewrite bool_decide_eq_true_2 by done.
  replace ({[cb]} ∪ m) with m by set_solver. exact IH.
Qed.

End MarkingMore.

(** X10, witness: three roots to two marked blobs, with the recording
    visitor. *)
Lemma traverse_marked_witness :
  Forall (fun cb => cb ∈ ({[100; 200]} : gset Z)) [100; 200; 100]
  /\ MarkingCodeBlobClosure.traverse MarkingCodeBlobClosure.recording_visitor
       [100; 200; 100] (MarkingCodeBlobClosure.Pass {[100; 200]} [300])
     = Done (tt, MarkingCodeBlobClosure.Pass {[100; 200]} [300]).
Proof.
  assert (Hall : Forall (fun cb => cb ∈ ({[100; 200]} : gset Z))
                   [100; 200; 100])
    by (apply (bool_decide_unpack _); vm_compute; exact I).
  split; [exact Hall|].
  exact (traverse_marked (list Z) MarkingCodeBlobClosure.recording_visitor
           [100; 200; 100] (MarkingCodeBlobClosure.Pass {[100; 200]} [300])
           Hall).
Defined.
